(** * The Kolibri flatpak wrapper (kolibri_wrapper.py)

    A shallow embedding of [kolibri-flatpak-utils/kolibri_wrapper.py]: the
    three content operations, the classification of a channel comparison
    into operations, and [Application.run], which applies the operations
    through [subprocess.run], writes the cache and finally starts Kolibri
    with the wrapper's own arguments. *)

From Stdlib Require Import ZArith String List.
From stdpp Require Import base strings gmap list.
Import ListNotations.

Local Open Scope string_scope.
Local Open Scope Z_scope.
Local Open Scope list_scope.

(** ** Python values the script relies on *)

Module Py.

(** [sep.join(items)]. *)
Definition join (sep : string) (items : list string) : string :=
  String.concat sep items.

(** Truth value of a sequence: empty is false. *)
Definition truthy_seq {A} (xs : list A) : bool :=
  match xs with [] => false | _ :: _ => true end.

(** Truth value of a string that may be [None]. *)
Definition truthy_str (s : option string) : bool :=
  match s with
  | None => false
  | Some EmptyString => false
  | Some (String _ _) => true
  end.

(** [x or y] for a string [x] that may be [None]. *)
Definition or_str (x : option string) (y : string) : string :=
  match x with
  | Some s => if truthy_str x then s else y
  | None => y
  end.

(** ["prefix{}".format(s)] for a string [s]. *)
Definition format1 (prefix s : string) : string := prefix +:+ s.

(** [xs[1:]]. *)
Definition slice_from_1 {A} (xs : list A) : list A := tl xs.

End Py.

(** ** Imported names *)

(** [from kolibri_gnome.globals import KOLIBRI_HOME]: the module is not part
    of this file, its constant is taken as given. *)
Class Globals := { KOLIBRI_HOME : string }.

(** [KOLIBRI = "/app/libexec/kolibri"]. *)
Definition KOLIBRI : string := "/app/libexec/kolibri".

(** Modelled from the spec: the channel comparison object that
    [from_channel_compare] reads (it is produced by [content_extensions],
    which is not part of this file).  The spec's ChannelDiff gives the flags
    as booleans and the node ids as sets of strings; a set is kept here as
    the list of its elements in iteration order, which is what [','.join]
    observes.  [extension_dir] may be [None]. *)
Record ContentChannelCompare := {
  channel_id : string;
  extension_dir : option string;
  added : bool;
  removed : bool;
  exclude_nodes_added : bool;
  include_nodes_removed : bool;
  new_include_node_ids : list string;
  new_exclude_node_ids : list string
}.

(** ** The content operations *)

(** The three subclasses of [KolibriContentOperation], with the attributes
    their constructors store. *)
Inductive KolibriContentOperation :=
| KolibriContentOperation_ImportChannel
    (channel_id : string) (extension_dir : option string)
| KolibriContentOperation_ImportContent
    (channel_id : string) (extension_dir : option string)
    (include_node_ids exclude_node_ids : list string)
| KolibriContentOperation_RescanContent
    (channel_id : string) (removed : bool).

(** What a generator body does between two resumptions: it logs, or it
    yields an operation to its consumer. *)
Inductive GenStep :=
| LoggerInfo (fmt arg : string)
| Yield (op : KolibriContentOperation).

(** [KolibriContentOperation.from_channel_compare]: the body of the
    generator, as the steps it performs when run to exhaustion. *)
Definition from_channel_compare (channel_compare : ContentChannelCompare)
  : list GenStep :=
  if added channel_compare then
    [ LoggerInfo "Channel added: %s" (channel_id channel_compare);
      Yield (KolibriContentOperation_ImportChannel
               (channel_id channel_compare)
               (extension_dir channel_compare));
      Yield (KolibriContentOperation_ImportContent
               (channel_id channel_compare)
               (extension_dir channel_compare)
               (new_include_node_ids channel_compare)
               (new_exclude_node_ids channel_compare)) ]
  else if removed channel_compare then
    [ LoggerInfo "Channel removed: %s" (channel_id channel_compare);
      Yield (KolibriContentOperation_RescanContent
               (channel_id channel_compare) true) ]
  else if exclude_nodes_added channel_compare then
    [ LoggerInfo "Channel update (added exclude_nodes): %s"
                 (channel_id channel_compare);
      Yield (KolibriContentOperation_RescanContent
               (channel_id channel_compare) false) ]
  else if include_nodes_removed channel_compare then
    [ LoggerInfo "Channel update (removed include_nodes): %s"
                 (channel_id channel_compare);
      Yield (KolibriContentOperation_RescanContent
               (channel_id channel_compare) false) ]
  else
    [ LoggerInfo "Channel update: %s" (channel_id channel_compare);
      Yield (KolibriContentOperation_ImportChannel
               (channel_id channel_compare)
               (extension_dir channel_compare));
      Yield (KolibriContentOperation_ImportContent
               (channel_id channel_compare)
               (extension_dir channel_compare)
               (new_include_node_ids channel_compare)
               (new_exclude_node_ids channel_compare)) ].

(** The operations a generator yields, in order. *)
Fixpoint yielded (steps : list GenStep) : list KolibriContentOperation :=
  match steps with
  | [] => []
  | LoggerInfo _ _ :: rest => yielded rest
  | Yield op :: rest => op :: yielded rest
  end.

(** [apply(self, run_kolibri_fn)] of the three subclasses; the positional
    arguments of [run_kolibri_fn] are a list. *)
Definition apply `{Globals} {R : Type}
    (self : KolibriContentOperation) (run_kolibri_fn : list string -> R) : R :=
  match self with
  | KolibriContentOperation_ImportChannel channel_id _ =>
      run_kolibri_fn
        [ "manage"; "scanforcontent";
          Py.format1 "--channels=" channel_id;
          "--skip-annotations" ]
  | KolibriContentOperation_ImportContent
      channel_id extension_dir include_node_ids exclude_node_ids =>
      let nodes_args : list string := [] in
      let nodes_args :=
        if Py.truthy_seq include_node_ids
        then nodes_args ++ ["--node_ids"; Py.join "," include_node_ids]
        else nodes_args in
      let nodes_args :=
        if Py.truthy_seq exclude_node_ids
        then nodes_args ++ ["--exclude_node_ids"; Py.join "," exclude_node_ids]
        else nodes_args in
      run_kolibri_fn
        ([ "manage"; "importcontent" ] ++ nodes_args ++
         [ "disk"; channel_id; Py.or_str extension_dir KOLIBRI_HOME ])
  | KolibriContentOperation_RescanContent channel_id removed =>
      let args : list string := [] in
      let args :=
        if removed then args ++ ["--channel-import-mode=none"] else args in
      run_kolibri_fn
        ([ "manage"; "scanforcontent";
           Py.format1 "--channels=" channel_id ] ++ args)
  end.

(** ** The content_extensions module *)

(** Modelled from the spec: [from .content_extensions import
    ContentExtensionsList] is not part of this file.  The spec's
    ExtensionSet is an ordered collection of extensions, each with a
    [content_dir]; iterating it yields the extensions in its order.
    Comparing two sets produces a finite stream of extension comparisons,
    each of which produces a finite stream of channel comparisons; both are
    pure, so a stream is kept as the list of what it produces. *)
Class ContentExtensions := {
  ContentExtension : Type;
  content_dir : ContentExtension -> string;
  ContentExtensionCompare : Type;
  compare :
    list ContentExtension -> list ContentExtension ->
    list ContentExtensionCompare;
  compare_channels : ContentExtensionCompare -> list ContentChannelCompare
}.

(** ** Effects: the log, child processes and the cache file *)

Section Effects.
Context `{ContentExtensions}.

(** What a run does to the outside, in the order it does it. *)
Inductive Event :=
| EvLoggerInfo (fmt arg : string)
| EvSubprocess (cmd : list string) (env : gmap string string)
               (returncode : Z)
| EvWriteCache (extensions : list ContentExtension).

(** What the interpreter is started with.  [child_exit] is the exit status
    the child process will have, given everything that happened before it
    was started, its command line and its environment. *)
Record Host := {
  sys_argv : list string;
  os_environ : gmap string string;
  child_exit : list Event -> list string -> gmap string string -> Z
}.

Record World := {
  trace : list Event;
  cache : list ContentExtension
}.

Definition initial_world (cached : list ContentExtension) : World :=
  {| trace := []; cache := cached |}.

Definition emit (e : Event) (w : World) : World :=
  {| trace := trace w ++ [e]; cache := cache w |}.

(** [subprocess.CalledProcessError(returncode, cmd)], the only exception
    the script can meet in its own code. *)
Inductive Exception :=
| CalledProcessError (returncode : Z) (cmd : list string).

Inductive Result (A : Type) :=
| Returned (a : A)
| Raised (e : Exception).
Global Arguments Returned {A} a.
Global Arguments Raised {A} e.

Definition M (A : Type) : Type := World -> Result A * World.

Definition ret {A} (a : A) : M A := fun w => (Returned a, w).

Definition bind {A B} (m : M A) (k : A -> M B) : M B :=
  fun w =>
    match m w with
    | (Returned a, w') => k a w'
    | (Raised e, w') => (Raised e, w')
    end.

(** [subprocess.CompletedProcess]. *)
Record CompletedProcess := {
  args : list string;
  returncode : Z
}.

(** [subprocess.run(cmd, env=env, check=check)]: the child is taken to
    start and to run to its end; with [check], a non-zero exit status
    raises [CalledProcessError]. *)
Definition subprocess_run (h : Host)
    (cmd : list string) (env : gmap string string) (check : bool)
  : M CompletedProcess :=
  fun w =>
    let retcode := child_exit h (trace w) cmd env in
    let w' := emit (EvSubprocess cmd env retcode) w in
    if check && negb (retcode =? 0)
    then (Raised (CalledProcessError retcode cmd), w')
    else (Returned {| args := cmd; returncode := retcode |}, w').

(** [logger.info(fmt, arg)]. *)
Definition logger_info (fmt arg : string) : M unit :=
  fun w => (Returned tt, emit (EvLoggerInfo fmt arg) w).

(** Modelled from the spec: [ContentExtensionsList.write_to_cache], the
    spec's [save], persists the set as the next run's cached snapshot. *)
Definition write_to_cache (extensions : list ContentExtension) : M unit :=
  fun w =>
    (Returned tt,
     {| trace := trace w ++ [EvWriteCache extensions];
        cache := extensions |}).

End Effects.

Notation "x <- m ;; k" := (bind m (fun x => k))
  (at level 100, m at next level, right associativity).
Notation "m ;;; k" := (bind m (fun _ => k))
  (at level 100, right associativity).

(** ** The application *)

Section Application.
Context `{Globals} `{ContentExtensions}.

(** The attributes [__init__] sets. *)
Record Application := {
  cached_extensions : list ContentExtension;
  active_extensions : list ContentExtension
}.

(** The property [__kolibri_env]. *)
Definition kolibri_env (h : Host) (self : Application)
  : gmap string string :=
  let kolibri_env := os_environ h in
  <[ "KOLIBRI_CONTENT_FALLBACK_DIRS" :=
       Py.join ";" (map content_dir (active_extensions self)) ]> kolibri_env.

(** [__run_kolibri(self, *args)]. *)
Definition run_kolibri (h : Host) (self : Application)
    (args : list string) : M Z :=
  result <- subprocess_run h (KOLIBRI :: args) (kolibri_env h self) true ;;
  ret (returncode result).

(** [__iter_content_operations]: the steps of the nested generators. *)
Definition iter_content_operations (self : Application) : list GenStep :=
  flat_map
    (fun extension_compare =>
       flat_map from_channel_compare (compare_channels extension_compare))
    (compare (cached_extensions self) (active_extensions self)).

(** [all(operation.apply(self.__run_kolibri) == 0 for operation in ...)]:
    the generator is resumed one step at a time, and [all] stops asking
    at the first false. *)
Fixpoint all_apply (h : Host) (self : Application) (steps : list GenStep)
  : M bool :=
  match steps with
  | [] => ret true
  | LoggerInfo fmt arg :: rest =>
      logger_info fmt arg ;;; all_apply h self rest
  | Yield operation :: rest =>
      code <- apply operation (run_kolibri h self) ;;
      if code =? 0 then all_apply h self rest else ret false
  end.

(** [Application.run]. *)
Definition run (h : Host) (self : Application) : M Z :=
  success <- all_apply h self (iter_content_operations self) ;;
  (if success : bool
   then write_to_cache (active_extensions self)
   else ret tt) ;;;
  let args := Py.slice_from_1 (sys_argv h) in
  run_kolibri h self args.

End Application.

(** ** The classification policy in the specification's words *)

(** The five rules of the policy, and the order in which it lists them. *)
Inductive Branch :=
| BrAdded
| BrRemoved
| BrExcludeNodesAdded
| BrIncludeNodesRemoved
| BrOtherwise.

Definition decision_order : list Branch :=
  [BrAdded; BrRemoved; BrExcludeNodesAdded; BrIncludeNodesRemoved; BrOtherwise].

(** The condition each rule tests. *)
Definition predicate (b : Branch) (d : ContentChannelCompare) : bool :=
  match b with
  | BrAdded => added d
  | BrRemoved => removed d
  | BrExcludeNodesAdded => exclude_nodes_added d
  | BrIncludeNodesRemoved => include_nodes_removed d
  | BrOtherwise => true
  end.

(** The operations each rule emits. *)
Definition branch_operations (b : Branch) (d : ContentChannelCompare)
  : list KolibriContentOperation :=
  match b with
  | BrAdded | BrOtherwise =>
      [ KolibriContentOperation_ImportChannel (channel_id d) (extension_dir d);
        KolibriContentOperation_ImportContent
          (channel_id d) (extension_dir d)
          (new_include_node_ids d) (new_exclude_node_ids d) ]
  | BrRemoved => [ KolibriContentOperation_RescanContent (channel_id d) true ]
  | BrExcludeNodesAdded | BrIncludeNodesRemoved =>
      [ KolibriContentOperation_RescanContent (channel_id d) false ]
  end.

(** The line each branch of the code logs before it yields. *)
Definition branch_message (b : Branch) : string :=
  match b with
  | BrAdded => "Channel added: %s"
  | BrRemoved => "Channel removed: %s"
  | BrExcludeNodesAdded => "Channel update (added exclude_nodes): %s"
  | BrIncludeNodesRemoved => "Channel update (removed include_nodes): %s"
  | BrOtherwise => "Channel update: %s"
  end.

Definition branch_steps (b : Branch) (d : ContentChannelCompare)
  : list GenStep :=
  LoggerInfo (branch_message b) (channel_id d)
  :: map Yield (branch_operations b d).

(** [b] is the first rule in the decision order whose condition holds. *)
Definition first_match (d : ContentChannelCompare) (b : Branch) : Prop :=
  exists earlier later,
    decision_order = earlier ++ b :: later /\
    Forall (fun b' => predicate b' d = false) earlier /\
    predicate b d = true.

(** A flag followed by the comma-joined ids, present when there are ids. *)
Definition optional_flag (flag : string) (ids : list string) : list string :=
  match ids with
  | [] => []
  | _ :: _ => [flag; Py.join "," ids]
  end.

(** The command line the specification gives for each operation. *)
Definition command_of `{Globals} (op : KolibriContentOperation)
  : list string :=
  match op with
  | KolibriContentOperation_ImportContent cid dir includes excludes =>
      [ "manage"; "importcontent" ]
      ++ optional_flag "--node_ids" includes
      ++ optional_flag "--exclude_node_ids" excludes
      ++ [ "disk"; cid; Py.or_str dir KOLIBRI_HOME ]
  | KolibriContentOperation_ImportChannel cid _ =>
      [ "manage"; "scanforcontent"; "--channels=" +:+ cid;
        "--skip-annotations" ]
  | KolibriContentOperation_RescanContent cid removed =>
      [ "manage"; "scanforcontent"; "--channels=" +:+ cid ]
      ++ (if removed then ["--channel-import-mode=none"] else [])
  end.

Definition is_rescan (op : KolibriContentOperation) : bool :=
  match op with
  | KolibriContentOperation_RescanContent _ _ => true
  | _ => false
  end.

(** ** What a trace shows *)

Section Observations.
Context `{ContentExtensions}.

(** One child process: its command line, environment and exit status. *)
Record Call := {
  call_cmd : list string;
  call_env : gmap string string;
  call_code : Z
}.

(** The child processes of a trace, in the order they ran. *)
Fixpoint subprocess_calls (events : list Event) : list Call :=
  match events with
  | [] => []
  | EvSubprocess cmd env code :: rest =>
      {| call_cmd := cmd; call_env := env; call_code := code |}
      :: subprocess_calls rest
  | _ :: rest => subprocess_calls rest
  end.

(** The sets written to the cache in a trace, in order. *)
Fixpoint cache_writes (events : list Event)
  : list (list ContentExtension) :=
  match events with
  | [] => []
  | EvWriteCache extensions :: rest => extensions :: cache_writes rest
  | _ :: rest => cache_writes rest
  end.

(** The fallback directories a child process was given. *)
Definition fallback_dirs (c : Call) : option string :=
  call_env c !! "KOLIBRI_CONTENT_FALLBACK_DIRS".

Definition exits_zero (c : Call) : Prop := call_code c = 0.

End Observations.

(** ** The plan and the log *)

(** The channel id an operation was constructed with. *)
Definition op_channel_id (op : KolibriContentOperation) : string :=
  match op with
  | KolibriContentOperation_ImportChannel cid _ => cid
  | KolibriContentOperation_ImportContent cid _ _ _ => cid
  | KolibriContentOperation_RescanContent cid _ => cid
  end.

(** The removed flag of a RescanContent; the other operations have none. *)
Definition op_removed (op : KolibriContentOperation) : bool :=
  match op with
  | KolibriContentOperation_RescanContent _ rm => rm
  | _ => false
  end.

(** Two operations are instances of the same subclass. *)
Definition same_class (op1 op2 : KolibriContentOperation) : bool :=
  match op1, op2 with
  | KolibriContentOperation_ImportChannel _ _,
    KolibriContentOperation_ImportChannel _ _ => true
  | KolibriContentOperation_ImportContent _ _ _ _,
    KolibriContentOperation_ImportContent _ _ _ _ => true
  | KolibriContentOperation_RescanContent _ _,
    KolibriContentOperation_RescanContent _ _ => true
  | _, _ => false
  end.

Section Plan.
Context `{Globals} `{ContentExtensions}.

(** The channel comparisons the two nested loops of
    [__iter_content_operations] visit, in the order they visit them. *)
Definition channel_compares (self : Application)
  : list ContentChannelCompare :=
  flat_map compare_channels
    (compare (cached_extensions self) (active_extensions self)).

(** The lines logged in a trace: format and argument. *)
Fixpoint log_lines (events : list Event) : list (string * string) :=
  match events with
  | [] => []
  | EvLoggerInfo fmt arg :: rest => (fmt, arg) :: log_lines rest
  | _ :: rest => log_lines rest
  end.

(** The event a generator step leaves in the trace when the operation it
    yields exits with zero. *)
Definition step_event (h : Host) (self : Application) (s : GenStep)
  : Event :=
  match s with
  | LoggerInfo fmt arg => EvLoggerInfo fmt arg
  | Yield op =>
      EvSubprocess (KOLIBRI :: command_of op) (kolibri_env h self) 0
  end.

End Plan.

(** ** Sample inputs *)

Module Sample.

Definition home : Globals := {| KOLIBRI_HOME := "/home/user/.kolibri" |}.

Definition channel_added : ContentChannelCompare :=
  {| channel_id := "c1"; extension_dir := Some "/ext1";
     added := true; removed := false;
     exclude_nodes_added := false; include_nodes_removed := false;
     new_include_node_ids := ["a"; "b"]; new_exclude_node_ids := [] |}.

Definition channel_removed : ContentChannelCompare :=
  {| channel_id := "c2"; extension_dir := None;
     added := false; removed := true;
     exclude_nodes_added := false; include_nodes_removed := false;
     new_include_node_ids := []; new_exclude_node_ids := [] |}.

Definition channel_retracted : ContentChannelCompare :=
  {| channel_id := "c3"; extension_dir := Some "/ext3";
     added := false; removed := false;
     exclude_nodes_added := true; include_nodes_removed := false;
     new_include_node_ids := []; new_exclude_node_ids := ["n1"] |}.

Definition channel_shrunk : ContentChannelCompare :=
  {| channel_id := "c4"; extension_dir := Some "/ext4";
     added := false; removed := false;
     exclude_nodes_added := false; include_nodes_removed := true;
     new_include_node_ids := []; new_exclude_node_ids := [] |}.

(** A small [content_extensions]: an extension is a content directory
    with its channel ids; extensions only in the active set are compared
    as added with all their channels, extensions only in the cached set as
    removed with all their channels. *)
Record Extension := {
  dir : string;
  channels : list string
}.

Definition known (e : Extension) (l : list Extension) : bool :=
  existsb (fun e' => String.eqb (dir e) (dir e')) l.

Definition channel_of (e : Extension) (is_added : bool) (cid : string)
  : ContentChannelCompare :=
  {| channel_id := cid; extension_dir := Some (dir e);
     added := is_added; removed := negb is_added;
     exclude_nodes_added := false; include_nodes_removed := false;
     new_include_node_ids := []; new_exclude_node_ids := [] |}.

Definition extensions : ContentExtensions :=
  {| ContentExtension := Extension;
     content_dir := dir;
     ContentExtensionCompare := Extension * bool;
     compare := fun cached active =>
       map (fun e => (e, true))
           (List.filter (fun e => negb (known e cached)) active)
       ++ map (fun e => (e, false))
              (List.filter (fun e => negb (known e active)) cached);
     compare_channels := fun c =>
       map (channel_of (fst c) (snd c)) (channels (fst c)) |}.

Definition ext1 : Extension :=
  {| dir := "/ext/one"; channels := ["c1"] |}.
Definition ext2 : Extension :=
  {| dir := "/ext/two"; channels := ["c2"; "c3"] |}.

(** [ext1] was installed since the last run. *)
Definition app : @Application extensions :=
  @Build_Application extensions [ext2] [ext2; ext1].

Definition mentions (word : string) (cmd : list string) : bool :=
  existsb (String.eqb word) cmd.

(** Every child process exits with zero. *)
Definition host_ok : @Host extensions :=
  @Build_Host extensions
    ["kolibri-flatpak-wrapper"; "start"; "--foreground"]
    {[ "HOME" := "/home/user" ]}
    (fun _ _ _ => 0).

(** [importcontent] exits with 2, everything else with zero. *)
Definition host_import_fails : @Host extensions :=
  @Build_Host extensions
    ["kolibri-flatpak-wrapper"; "start"; "--foreground"]
    {[ "HOME" := "/home/user" ]}
    (fun _ cmd _ => if mentions "importcontent" cmd then 2 else 0).

(** [start] exits with 3, everything else with zero. *)
Definition host_start_fails : @Host extensions :=
  @Build_Host extensions
    ["kolibri-flatpak-wrapper"; "start"; "--foreground"]
    {[ "HOME" := "/home/user" ]}
    (fun _ cmd _ => if mentions "start" cmd then 3 else 0).

(** The cache holds [ext2] when the run starts. *)
Definition world : @World extensions := @initial_world extensions [ext2].

Definition run_on (h : @Host extensions)
  : Result Z * @World extensions :=
  @run home extensions h app world.

Definition writes (events : list (@Event extensions))
  : list (list Extension) :=
  @cache_writes extensions events.

(** Command line and exit status of the child processes of a trace. *)
Definition summary (events : list (@Event extensions))
  : list (list string * Z) :=
  map (fun c => (call_cmd c, call_code c)) (subprocess_calls events).

End Sample.

(** ** More sample inputs *)

Module SampleRuns.

(** The active set is the cached set: nothing to compare. *)
Definition app_unchanged : @Application Sample.extensions :=
  @Build_Application Sample.extensions [Sample.ext2] [Sample.ext2].

Definition cached : list (@ContentExtension Sample.extensions) :=
  [Sample.ext2].

(** The steps of the sample application: [ext1] is new. *)
Definition steps : list GenStep :=
  @iter_content_operations Sample.extensions Sample.app.

End SampleRuns.

(** * Properties *)

(** ** Classification *)

Lemma first_match_find (d : ContentChannelCompare) (b : Branch) :
  first_match d b ->
  List.find (fun b' => predicate b' d) decision_order = Some b.
Proof.
  intros (earlier & later & -> & Hearlier & Hb).
  induction Hearlier as [|b' earlier Hb' _ IH]; simpl.
  - now rewrite Hb.
  - now rewrite Hb'.
Qed.

Lemma branch_steps_inj (d : ContentChannelCompare) (b b' : Branch) :
  branch_steps b d = branch_steps b' d -> b = b'.
Proof.
  unfold branch_steps. intros Heq.
  assert (Hmsg : branch_message b = branch_message b') by congruence.
  clear Heq. destruct b, b'; simpl in Hmsg; congruence.
Qed.

Lemma from_channel_compare_branch (d : ContentChannelCompare) :
  exists b, first_match d b /\ from_channel_compare d = branch_steps b d.
Proof.
  unfold from_channel_compare, first_match.
  destruct (added d) eqn:Ha.
  { exists BrAdded. split; [exists [], (tl decision_order)|]; auto. }
  destruct (removed d) eqn:Hr.
  { exists BrRemoved. split; [|reflexivity].
    exists [BrAdded], (skipn 2 decision_order).
    repeat split; auto. }
  destruct (exclude_nodes_added d) eqn:He.
  { exists BrExcludeNodesAdded. split; [|reflexivity].
    exists [BrAdded; BrRemoved], (skipn 3 decision_order).
    repeat split; auto. }
  destruct (include_nodes_removed d) eqn:Hi.
  { exists BrIncludeNodesRemoved. split; [|reflexivity].
    exists [BrAdded; BrRemoved; BrExcludeNodesAdded],
           (skipn 4 decision_order).
    repeat split; auto. }
  exists BrOtherwise. split; [|reflexivity].
  exists [BrAdded; BrRemoved; BrExcludeNodesAdded; BrIncludeNodesRemoved],
         [].
  repeat split; auto 6.
Qed.

Lemma first_match_unique (d : ContentChannelCompare) (b b' : Branch) :
  first_match d b -> first_match d b' -> b = b'.
Proof.
  intros Hb Hb'. apply first_match_find in Hb, Hb'. congruence.
Qed.

Lemma yielded_branch_steps (b : Branch) (d : ContentChannelCompare) :
  yielded (branch_steps b d) = branch_operations b d.
Proof. now destruct b. Qed.

(** C2: the conditions are tested in the order added, removed,
    exclude_nodes_added, include_nodes_removed, otherwise; the first rule of
    that order whose condition holds is the one branch whose log line and
    operations the generator produces, and no other rule is in that
    position or has that output. *)
Theorem from_channel_compare_first_match (d : ContentChannelCompare) :
  exists b,
    first_match d b /\
    from_channel_compare d = branch_steps b d /\
    forall b',
      first_match d b' \/ from_channel_compare d = branch_steps b' d ->
      b' = b.
Proof.
  destruct (from_channel_compare_branch d) as (b & Hfirst & Hsteps).
  exists b. repeat split; trivial.
  intros b' [Hfirst' | Hsteps'].
  - now apply (first_match_unique d).
  - apply (branch_steps_inj d). congruence.
Qed.

(** C3: an added channel yields exactly an ImportChannel and then an
    ImportContent, both with the comparison's channel id and extension
    directory, the second with its new include and exclude node ids. *)
Theorem from_channel_compare_when_added (d : ContentChannelCompare) :
  added d = true ->
  yielded (from_channel_compare d)
  = [ KolibriContentOperation_ImportChannel (channel_id d) (extension_dir d);
      KolibriContentOperation_ImportContent
        (channel_id d) (extension_dir d)
        (new_include_node_ids d) (new_exclude_node_ids d) ].
Proof.
  intros Ha. unfold from_channel_compare. now rewrite Ha.
Qed.

(** C4: a channel that is removed and not added yields exactly one
    operation, a RescanContent of its channel id with removed set. *)
Theorem from_channel_compare_when_removed (d : ContentChannelCompare) :
  added d = false ->
  removed d = true ->
  yielded (from_channel_compare d)
  = [ KolibriContentOperation_RescanContent (channel_id d) true ]
  /\ forallb is_rescan (yielded (from_channel_compare d)) = true.
Proof.
  intros Ha Hr. unfold from_channel_compare. rewrite Ha, Hr. now split.
Qed.

(** C5: a channel neither added nor removed whose excludes grew, or whose
    excludes did not grow and whose includes shrank, yields exactly one
    operation, a RescanContent of its channel id with removed unset. *)
Theorem from_channel_compare_when_retracted (d : ContentChannelCompare) :
  added d = false ->
  removed d = false ->
  exclude_nodes_added d = true
  \/ (exclude_nodes_added d = false /\ include_nodes_removed d = true) ->
  yielded (from_channel_compare d)
  = [ KolibriContentOperation_RescanContent (channel_id d) false ]
  /\ forallb is_rescan (yielded (from_channel_compare d)) = true.
Proof.
  intros Ha Hr Hcase. unfold from_channel_compare. rewrite Ha, Hr.
  destruct Hcase as [He | [He Hi]]; rewrite He; [|rewrite Hi]; now split.
Qed.

(** C9: a comparison yields one or two operations; two exactly when the
    added rule or the fall-through rule is the first match, and then an
    ImportChannel followed by an ImportContent with the same channel id and
    extension directory; a single operation is a RescanContent. *)
Theorem from_channel_compare_one_or_two (d : ContentChannelCompare) :
  let ops := yielded (from_channel_compare d) in
  (1 <= length ops <= 2)%nat
  /\ (length ops = 2%nat <-> first_match d BrAdded \/ first_match d BrOtherwise)
  /\ (length ops = 2%nat ->
      ops = [ KolibriContentOperation_ImportChannel
                (channel_id d) (extension_dir d);
              KolibriContentOperation_ImportContent
                (channel_id d) (extension_dir d)
                (new_include_node_ids d) (new_exclude_node_ids d) ])
  /\ (length ops = 1%nat ->
      exists rm,
        ops = [ KolibriContentOperation_RescanContent (channel_id d) rm ]).
Proof.
  destruct (from_channel_compare_branch d) as (b & Hfirst & Hsteps).
  cbv zeta. rewrite Hsteps, yielded_branch_steps. repeat split.
  - destruct b; simpl; lia.
  - destruct b; simpl; lia.
  - intros Hlen. destruct b; simpl in Hlen; try discriminate; auto.
  - intros [Hb | Hb]; rewrite (first_match_unique d _ _ Hfirst Hb);
      reflexivity.
  - intros Hlen. destruct b; simpl in Hlen; try discriminate; reflexivity.
  - intros Hlen. destruct b; simpl in Hlen; try discriminate; simpl; eauto.
Qed.

(** ** Applying an operation *)

Section Apply.
Context `{Globals}.

Lemma optional_flag_truthy (flag : string) (ids : list string) :
  optional_flag flag ids
  = if Py.truthy_seq ids then [flag; Py.join "," ids] else [].
Proof. now destruct ids. Qed.

Lemma apply_import_content
    {R : Type} (cid : string) (dir : option string)
    (includes excludes : list string) (run_kolibri_fn : list string -> R) :
  apply (KolibriContentOperation_ImportContent cid dir includes excludes)
        run_kolibri_fn
  = run_kolibri_fn
      ([ "manage"; "importcontent" ]
       ++ optional_flag "--node_ids" includes
       ++ optional_flag "--exclude_node_ids" excludes
       ++ [ "disk"; cid; Py.or_str dir KOLIBRI_HOME ]).
Proof.
  simpl. rewrite !optional_flag_truthy.
  now destruct (Py.truthy_seq includes), (Py.truthy_seq excludes).
Qed.

Lemma apply_eq_command
    {R : Type} (op : KolibriContentOperation)
    (run_kolibri_fn : list string -> R) :
  apply op run_kolibri_fn = run_kolibri_fn (command_of op).
Proof.
  destruct op as [cid dir | cid dir includes excludes | cid rm].
  - reflexivity.
  - apply apply_import_content.
  - now destruct rm.
Qed.

Lemma optional_flag_nil (flag : string) (ids : list string) :
  optional_flag flag ids = [] <-> ids = [].
Proof. destruct ids; simpl; split; congruence. Qed.

(** C6: applying an operation calls the executor once, with the command
    the operation's fields map to.  An ImportContent gives importcontent,
    then --node_ids with the comma-joined includes when there are any,
    then --exclude_node_ids with the comma-joined excludes when there are
    any, then disk, the channel id and the content directory.  An
    ImportChannel gives scanforcontent with --channels=<channel id> and
    --skip-annotations.  A RescanContent gives scanforcontent with
    --channels=<channel id>, and --channel-import-mode=none exactly when
    removed is set. *)
Theorem apply_command_mapping
    {R : Type} (run_kolibri_fn : list string -> R) :
  (forall cid dir includes excludes,
      apply (KolibriContentOperation_ImportContent
               cid dir includes excludes) run_kolibri_fn
      = run_kolibri_fn
          ([ "manage"; "importcontent" ]
           ++ optional_flag "--node_ids" includes
           ++ optional_flag "--exclude_node_ids" excludes
           ++ [ "disk"; cid; Py.or_str dir KOLIBRI_HOME ])
      /\ (optional_flag "--node_ids" includes = [] <-> includes = [])
      /\ (optional_flag "--exclude_node_ids" excludes = []
          <-> excludes = []))
  /\ (forall cid dir,
        apply (KolibriContentOperation_ImportChannel cid dir) run_kolibri_fn
        = run_kolibri_fn
            [ "manage"; "scanforcontent"; "--channels=" +:+ cid;
              "--skip-annotations" ])
  /\ (forall cid rm,
        apply (KolibriContentOperation_RescanContent cid rm) run_kolibri_fn
        = run_kolibri_fn
            ([ "manage"; "scanforcontent"; "--channels=" +:+ cid ]
             ++ (if rm then ["--channel-import-mode=none"] else []))).
Proof.
  split; [|split].
  - intros cid dir includes excludes.
    split; [apply apply_import_content|].
    split; apply optional_flag_nil.
  - reflexivity.
  - intros cid rm. now destruct rm.
Qed.

(** C10: the last argument of an ImportContent's command, after disk and
    the channel id, is KOLIBRI_HOME when the extension directory is absent
    or empty, and the extension directory itself otherwise. *)
Theorem import_content_directory_fallback
    (cid : string) (dir : option string) (includes excludes : list string) :
  let command :=
    apply (KolibriContentOperation_ImportContent cid dir includes excludes)
          (fun args => args) in
  (dir = None \/ dir = Some "" ->
   exists nodes_args,
     command = [ "manage"; "importcontent" ] ++ nodes_args
               ++ [ "disk"; cid; KOLIBRI_HOME ])
  /\ (forall d, dir = Some d -> d <> "" ->
      exists nodes_args,
        command = [ "manage"; "importcontent" ] ++ nodes_args
                  ++ [ "disk"; cid; d ]).
Proof.
  cbv zeta. split.
  - intros Hdir.
    exists (optional_flag "--node_ids" includes
            ++ optional_flag "--exclude_node_ids" excludes).
    rewrite apply_import_content, <- !app_assoc.
    now destruct Hdir as [-> | ->].
  - intros d -> Hd.
    exists (optional_flag "--node_ids" includes
            ++ optional_flag "--exclude_node_ids" excludes).
    rewrite apply_import_content, <- !app_assoc.
    destruct d; [congruence | reflexivity].
Qed.

End Apply.

(** ** Running the application *)

Section Run.
Context `{Globals} `{ContentExtensions}.

Lemma subprocess_calls_app (xs ys : list Event) :
  subprocess_calls (xs ++ ys) = subprocess_calls xs ++ subprocess_calls ys.
Proof.
  induction xs as [|[] xs IH]; simpl; now rewrite ?IH.
Qed.

Lemma cache_writes_app (xs ys : list Event) :
  cache_writes (xs ++ ys) = cache_writes xs ++ cache_writes ys.
Proof.
  induction xs as [|[] xs IH]; simpl; now rewrite ?IH.
Qed.

(** One call of [__run_kolibri]: the child runs, and its exit status is
    returned when it is zero and raised otherwise. *)
Lemma run_kolibri_eq (h : Host) (self : Application)
    (args : list string) (w : World) :
  let cmd := KOLIBRI :: args in
  let code := child_exit h (trace w) cmd (kolibri_env h self) in
  run_kolibri h self args w
  = (if code =? 0 then Returned 0
     else Raised (CalledProcessError code cmd),
     emit (EvSubprocess cmd (kolibri_env h self) code) w).
Proof.
  cbv zeta. unfold run_kolibri, bind, subprocess_run, ret. simpl.
  destruct (Z.eqb_spec
              (child_exit h (trace w) (KOLIBRI :: args) (kolibri_env h self))
              0) as [-> | Hne]; reflexivity.
Qed.

(** What the [all(...)] expression of [run] does from any state: it only
    appends to the trace, never touches the cache, starts the commands of
    a prefix of the yielded operations in order, each in the Kolibri
    environment, and either every one of them exits with zero and the
    result is true, or the last one started exits with a non-zero status,
    which is raised. *)
Lemma all_apply_spec (h : Host) (self : Application)
    (steps : list GenStep) (w : World) :
  exists events,
    let calls := subprocess_calls events in
    trace (all_apply h self steps w).2 = trace w ++ events
    /\ cache (all_apply h self steps w).2 = cache w
    /\ cache_writes events = []
    /\ Forall (fun c => call_env c = kolibri_env h self) calls
    /\ map call_cmd calls
       = map (fun op => KOLIBRI :: command_of op)
             (take (length calls) (yielded steps))
    /\ (((all_apply h self steps w).1 = Returned true
         /\ Forall exits_zero calls
         /\ length calls = length (yielded steps))
        \/ (exists finished failed,
              calls = finished ++ [failed]
              /\ Forall exits_zero finished
              /\ call_code failed <> 0
              /\ (all_apply h self steps w).1
                 = Raised (CalledProcessError (call_code failed)
                                              (call_cmd failed)))).
Proof.
  revert w. induction steps as [|[fmt arg | op] rest IH]; intros w.
  - exists []. simpl. rewrite app_nil_r. repeat split; auto.
  - destruct (IH (emit (EvLoggerInfo fmt arg) w))
      as (events & Htrace & Hcache & Hwrites & Henv & Hcmd & Hres).
    exists (EvLoggerInfo fmt arg :: events).
    change (all_apply h self (LoggerInfo fmt arg :: rest) w)
      with (all_apply h self rest (emit (EvLoggerInfo fmt arg) w)).
    simpl in *. rewrite Htrace, <- app_assoc. repeat split; auto.
  - set (cmd := KOLIBRI :: command_of op).
    set (code := child_exit h (trace w) cmd (kolibri_env h self)).
    set (e := EvSubprocess cmd (kolibri_env h self) code).
    assert (Hstep : all_apply h self (Yield op :: rest) w
                    = if code =? 0 then all_apply h self rest (emit e w)
                      else (Raised (CalledProcessError code cmd), emit e w)).
    { simpl. unfold bind. rewrite apply_eq_command, run_kolibri_eq.
      fold cmd code e. now destruct (code =? 0). }
    rewrite Hstep. destruct (Z.eqb_spec code 0) as [Hzero | Hne].
    + destruct (IH (emit e w))
        as (events & Htrace & Hcache & Hwrites & Henv & Hcmd & Hres).
      exists (e :: events). simpl in *.
      rewrite Htrace, <- app_assoc. repeat split; auto.
      * now rewrite Hcmd.
      * destruct Hres as [(Hr & Hcodes & Hlen) | (fin & bad & Hc & Hf & Hb & Hr)].
        -- left. repeat split; auto.
        -- right. exists ({| call_cmd := cmd; call_env := kolibri_env h self;
                             call_code := code |} :: fin), bad.
           rewrite Hc. repeat split; auto.
    + exists [e]. simpl. repeat split; auto.
      right. exists [], {| call_cmd := cmd; call_env := kolibri_env h self;
                          call_code := code |}.
      repeat split; auto.
Qed.

Lemma run_after_success (h : Host) (self : Application) (w : World) :
  (all_apply h self (iter_content_operations self) w).1 = Returned true ->
  run h self w
  = run_kolibri h self (Py.slice_from_1 (sys_argv h))
      (write_to_cache (active_extensions self)
         (all_apply h self (iter_content_operations self) w).2).2.
Proof.
  unfold run, bind.
  destruct (all_apply h self (iter_content_operations self) w) as [r w1].
  simpl. now intros ->.
Qed.

Lemma run_after_raise (h : Host) (self : Application) (w : World)
    (e : Exception) :
  (all_apply h self (iter_content_operations self) w).1 = Raised e ->
  run h self w
  = (Raised e, (all_apply h self (iter_content_operations self) w).2).
Proof.
  unfold run, bind.
  destruct (all_apply h self (iter_content_operations self) w) as [r w1].
  simpl. now intros ->.
Qed.

Lemma not_all_exit_zero (finished : list Call) (failed : Call) :
  call_code failed <> 0 -> ~ Forall exits_zero (finished ++ [failed]).
Proof.
  intros Hne Hall. apply Forall_app in Hall as [_ Hlast].
  inversion Hlast; subst. contradiction.
Qed.

(** C1: the executed content operations are a prefix of the planned ones,
    in order; the active set is written to the cache exactly when every
    executed operation exits with zero, and then every planned operation
    was executed and the write follows them; when one exits with a non-zero
    status it is the last thing the run does: no further operation is
    started, nothing is written, and the cache is what it was. *)
Theorem cache_written_iff_operations_succeed
    (h : Host) (self : Application) (cached : list ContentExtension) :
  let plan := yielded (iter_content_operations self) in
  let phase :=
    all_apply h self (iter_content_operations self) (initial_world cached) in
  let final := run h self (initial_world cached) in
  let executed := subprocess_calls (trace phase.2) in
  map call_cmd executed
  = map (fun op => KOLIBRI :: command_of op) (take (length executed) plan)
  /\ (cache_writes (trace final.2) = [active_extensions self]
      <-> Forall exits_zero executed)
  /\ (Forall exits_zero executed ->
      length executed = length plan
      /\ cache final.2 = active_extensions self
      /\ exists code,
           trace final.2
           = trace phase.2
             ++ [ EvWriteCache (active_extensions self);
                  EvSubprocess (KOLIBRI :: Py.slice_from_1 (sys_argv h))
                               (kolibri_env h self) code ])
  /\ (~ Forall exits_zero executed ->
      (exists finished failed,
         executed = finished ++ [failed]
         /\ Forall exits_zero finished
         /\ call_code failed <> 0)
      /\ trace final.2 = trace phase.2
      /\ cache_writes (trace final.2) = []
      /\ cache final.2 = cached).
Proof.
  cbv zeta.
  destruct (all_apply_spec h self (iter_content_operations self)
              (initial_world cached))
    as (events & Htrace & Hcache & Hwrites & _ & Hcmd & Hres).
  simpl in Htrace, Hcache. rewrite Htrace.
  split; [exact Hcmd|].
  destruct Hres as [(Hr & Hzero & Hlen)
                   | (finished & failed & Hcalls & Hfin & Hbad & Hr)].
  - rewrite (run_after_success _ _ _ Hr), run_kolibri_eq. simpl.
    rewrite Htrace, !cache_writes_app, Hwrites. simpl.
    split; [now split|]. split.
    + intros _. split; [exact Hlen|]. split; [reflexivity|].
      eexists. rewrite <- app_assoc. reflexivity.
    + intros Hnot. contradiction.
  - rewrite (run_after_raise _ _ _ _ Hr). simpl.
    rewrite Htrace, Hwrites, Hcalls.
    pose proof (not_all_exit_zero finished failed Hbad) as Hnot.
    split; [split; [discriminate | contradiction]|].
    split; [contradiction|].
    intros _. split; [|now split].
    exists finished, failed. now split.
Qed.

Lemma fallback_dirs_kolibri_env (h : Host) (self : Application) :
  kolibri_env h self !! "KOLIBRI_CONTENT_FALLBACK_DIRS"
  = Some (Py.join ";" (map content_dir (active_extensions self))).
Proof. unfold kolibri_env. apply lookup_insert_eq. Qed.

(** Every child process of a run is given the Kolibri environment, and a
    run starts at least one. *)
Lemma run_calls_env
    (h : Host) (self : Application) (cached : list ContentExtension) :
  let calls :=
    subprocess_calls (trace (run h self (initial_world cached)).2) in
  calls <> []
  /\ Forall (fun c => call_env c = kolibri_env h self) calls.
Proof.
  cbv zeta.
  destruct (all_apply_spec h self (iter_content_operations self)
              (initial_world cached))
    as (events & Htrace & _ & _ & Henv & _ & Hres).
  simpl in Htrace.
  destruct Hres as [(Hr & _ & _)
                   | (finished & failed & Hcalls & _ & _ & Hr)].
  - rewrite (run_after_success _ _ _ Hr), run_kolibri_eq. simpl.
    rewrite Htrace, !subprocess_calls_app. simpl. rewrite app_nil_r. split.
    + intros Hnil. apply app_eq_nil in Hnil as [_ Hnil]. discriminate.
    + apply Forall_app. split; [exact Henv|]. now constructor.
  - rewrite (run_after_raise _ _ _ _ Hr). simpl. rewrite Htrace.
    split; [|exact Henv].
    rewrite Hcalls. intros Hnil.
    apply app_eq_nil in Hnil as [_ Hnil]. discriminate.
Qed.

(** C7: every child process of a run is given KOLIBRI_CONTENT_FALLBACK_DIRS
    set to the content directories of the active extensions, in their
    order, joined with a semicolon; two runs with the same active set give
    the same value to all of their child processes, whatever else differs
    between them. *)
Theorem fallback_dirs_of_every_invocation
    (active : list ContentExtension)
    (h1 h2 : Host) (cached1 cached2 cache1 cache2 : list ContentExtension) :
  let self1 :=
    {| cached_extensions := cached1; active_extensions := active |} in
  let self2 :=
    {| cached_extensions := cached2; active_extensions := active |} in
  let calls1 :=
    subprocess_calls (trace (run h1 self1 (initial_world cache1)).2) in
  let calls2 :=
    subprocess_calls (trace (run h2 self2 (initial_world cache2)).2) in
  calls1 <> []
  /\ Forall (fun c =>
               fallback_dirs c = Some (Py.join ";" (map content_dir active)))
            calls1
  /\ Forall (fun c1 =>
               Forall (fun c2 => fallback_dirs c1 = fallback_dirs c2) calls2)
            calls1.
Proof.
  cbv zeta.
  destruct (run_calls_env h1
              {| cached_extensions := cached1; active_extensions := active |}
              cache1) as [Hne1 Henv1].
  destruct (run_calls_env h2
              {| cached_extensions := cached2; active_extensions := active |}
              cache2) as [_ Henv2].
  split; [exact Hne1|]. split.
  - eapply Forall_impl; [exact Henv1|].
    intros c Hc. unfold fallback_dirs. rewrite Hc.
    apply fallback_dirs_kolibri_env.
  - eapply Forall_impl; [exact Henv1|].
    intros c1 Hc1. eapply Forall_impl; [exact Henv2|].
    intros c2 Hc2. unfold fallback_dirs. rewrite Hc1, Hc2.
    now rewrite !fallback_dirs_kolibri_env.
Qed.

(** X1: when every content operation exits with zero, the run goes on to write
    the cache and to start Kolibri once with the wrapper's own arguments;
    the result is that child's exit status when it is zero, and a raised
    CalledProcessError carrying it otherwise. *)
Lemma run_final_invocation
    (h : Host) (self : Application) (cached : list ContentExtension) :
  let phase :=
    all_apply h self (iter_content_operations self) (initial_world cached) in
  let final := run h self (initial_world cached) in
  let cmd := KOLIBRI :: Py.slice_from_1 (sys_argv h) in
  Forall exits_zero (subprocess_calls (trace phase.2)) ->
  exists code,
    trace final.2
    = trace phase.2
      ++ [ EvWriteCache (active_extensions self);
           EvSubprocess cmd (kolibri_env h self) code ]
    /\ final.1 = (if code =? 0 then Returned code
                  else Raised (CalledProcessError code cmd)).
Proof.
  cbv zeta. intros Hzero.
  destruct (all_apply_spec h self (iter_content_operations self)
              (initial_world cached))
    as (events & Htrace & _ & _ & _ & _ & Hres).
  simpl in Htrace. rewrite Htrace in Hzero.
  destruct Hres as [(Hr & _ & _)
                   | (finished & failed & Hcalls & _ & Hbad & _)].
  - rewrite (run_after_success _ _ _ Hr), run_kolibri_eq. simpl.
    eexists. split.
    + rewrite <- app_assoc. reflexivity.
    + match goal with
      | |- context [?code =? 0] =>
          destruct (Z.eqb_spec code 0) as [Heq | Hne];
          [now rewrite Heq | reflexivity]
      end.
  - rewrite Hcalls in Hzero. now apply not_all_exit_zero in Hzero.
Qed.

End Run.

(** ** More on the plan *)

Section PlanProperties.
Context `{Globals} `{ContentExtensions}.

Lemma yielded_app (xs ys : list GenStep) :
  yielded (xs ++ ys) = yielded xs ++ yielded ys.
Proof.
  induction xs as [|[fmt arg | op] xs IH]; simpl; now rewrite ?IH.
Qed.

Lemma iter_content_operations_eq (self : Application) :
  iter_content_operations self
  = flat_map from_channel_compare (channel_compares self).
Proof.
  unfold iter_content_operations, channel_compares.
  induction (compare (cached_extensions self) (active_extensions self))
    as [|ec ecs IH]; simpl; [reflexivity|].
  now rewrite flat_map_app, IH.
Qed.

Lemma yielded_flat_map (ccs : list ContentChannelCompare) :
  yielded (flat_map from_channel_compare ccs)
  = flat_map (fun cc => yielded (from_channel_compare cc)) ccs.
Proof.
  induction ccs as [|cc ccs IH]; simpl; [reflexivity|].
  now rewrite yielded_app, IH.
Qed.

(** The operations of one comparison: the import pair, or one rescan. *)
Lemma yielded_shape (d : ContentChannelCompare) :
  yielded (from_channel_compare d)
  = [ KolibriContentOperation_ImportChannel (channel_id d) (extension_dir d);
      KolibriContentOperation_ImportContent
        (channel_id d) (extension_dir d)
        (new_include_node_ids d) (new_exclude_node_ids d) ]
  \/ exists rm,
       yielded (from_channel_compare d)
       = [ KolibriContentOperation_RescanContent (channel_id d) rm ].
Proof.
  destruct (from_channel_compare_branch d) as (b & _ & ->).
  rewrite yielded_branch_steps. destruct b; simpl; eauto.
Qed.

(** X8: the plan is the concatenation, in the order of the nested loops
    (extension comparisons, then their channel comparisons), of what each
    channel comparison yields; it has at least as many operations as there
    are channel comparisons and at most twice as many. *)
Theorem plan_in_comparison_order (self : Application) :
  let plan := yielded (iter_content_operations self) in
  plan
  = flat_map (fun cc => yielded (from_channel_compare cc))
             (channel_compares self)
  /\ (length (channel_compares self) <= length plan
      <= 2 * length (channel_compares self))%nat.
Proof.
  cbv zeta. rewrite iter_content_operations_eq, yielded_flat_map.
  split; [reflexivity|].
  induction (channel_compares self) as [|cc ccs IH]; simpl; [lia|].
  rewrite length_app.
  destruct (yielded_shape cc) as [-> | [rm ->]]; simpl; lia.
Qed.

Lemma import_content_after_import_channel_blocks
    (ccs : list ContentChannelCompare)
    (pre post : list KolibriContentOperation)
    (cid : string) (dir : option string) (includes excludes : list string) :
  flat_map (fun cc => yielded (from_channel_compare cc)) ccs
  = pre ++ KolibriContentOperation_ImportContent cid dir includes excludes
        :: post ->
  exists pre', pre = pre' ++ [KolibriContentOperation_ImportChannel cid dir].
Proof.
  revert pre. induction ccs as [|cc ccs IH]; intros pre; simpl.
  - intros Heq. now destruct pre.
  - destruct (yielded_shape cc) as [-> | [rm ->]]; simpl; intros Heq.
    + destruct pre as [|x [|y pre]]; simpl in Heq.
      * discriminate.
      * inversion Heq; subst. now exists [].
      * inversion Heq as [[Hx Hy Hrest]]; subst x y.
        destruct (IH _ Hrest) as [pre' ->].
        eexists (_ :: _ :: pre'). reflexivity.
    + destruct pre as [|x pre]; simpl in Heq.
      * discriminate.
      * inversion Heq as [[Hx Hrest]]; subst x.
        destruct (IH _ Hrest) as [pre' ->].
        eexists (_ :: pre'). reflexivity.
Qed.

(** X9: in the plan, and in every prefix of it that a run gets to execute,
    an ImportContent comes immediately after the ImportChannel of the same
    channel id and extension directory. *)
Theorem import_content_follows_import_channel
    (self : Application) (n : nat)
    (pre post : list KolibriContentOperation)
    (cid : string) (dir : option string) (includes excludes : list string) :
  take n (yielded (iter_content_operations self))
  = pre ++ KolibriContentOperation_ImportContent cid dir includes excludes
        :: post ->
  exists pre', pre = pre' ++ [KolibriContentOperation_ImportChannel cid dir].
Proof.
  intros Htake.
  apply (import_content_after_import_channel_blocks
           (channel_compares self) pre
           (post ++ drop n (yielded (iter_content_operations self)))
           cid dir includes excludes).
  rewrite <- yielded_flat_map, <- iter_content_operations_eq.
  rewrite <- (take_drop n (yielded (iter_content_operations self))) at 1.
  rewrite Htake, <- app_assoc. reflexivity.
Qed.


(** X11: every operation of the plan carries the channel id of one of the
    channel comparisons. *)
Theorem plan_channel_ids (self : Application) :
  Forall (fun op =>
            In (op_channel_id op) (map channel_id (channel_compares self)))
         (yielded (iter_content_operations self)).
Proof.
  rewrite iter_content_operations_eq, yielded_flat_map.
  induction (channel_compares self) as [|cc ccs IH]; simpl; [constructor|].
  apply Forall_app. split.
  - destruct (yielded_shape cc) as [-> | [rm ->]];
      repeat constructor; simpl; auto.
  - eapply Forall_impl; [exact IH|]. simpl. auto.
Qed.

End PlanProperties.

(** ** More on a run *)

Section RunProperties.
Context `{Globals} `{ContentExtensions}.

Lemma log_lines_app (xs ys : list Event) :
  log_lines (xs ++ ys) = log_lines xs ++ log_lines ys.
Proof.
  induction xs as [|[] xs IH]; simpl; now rewrite ?IH.
Qed.

(** One resumption of the generator that yields [op]. *)
Lemma all_apply_yield (h : Host) (self : Application)
    (op : KolibriContentOperation) (rest : list GenStep) (w : World) :
  let cmd := KOLIBRI :: command_of op in
  let code := child_exit h (trace w) cmd (kolibri_env h self) in
  let e := EvSubprocess cmd (kolibri_env h self) code in
  all_apply h self (Yield op :: rest) w
  = if code =? 0 then all_apply h self rest (emit e w)
    else (Raised (CalledProcessError code cmd), emit e w).
Proof.
  cbv zeta. simpl. unfold bind.
  rewrite apply_eq_command, run_kolibri_eq.
  now destruct (_ =? 0).
Qed.

(** X3: the [all(...)] expression of [run] is never false, from any state
    and for any steps: an operation that does not exit with zero raises
    before its status can be compared with 0, so [success] is true whenever
    [run] gets to test it. *)
Theorem success_flag_never_false (h : Host) (self : Application)
    (steps : list GenStep) (w : World) :
  (all_apply h self steps w).1 <> Returned false.
Proof.
  revert w. induction steps as [|[fmt arg | op] rest IH]; intros w.
  - discriminate.
  - apply (IH (emit (EvLoggerInfo fmt arg) w)).
  - rewrite all_apply_yield. destruct (_ =? 0); [apply IH | discriminate].
Qed.

(** When the [all(...)] expression is true, it left exactly one event per
    generator step. *)
Lemma all_apply_success (h : Host) (self : Application)
    (steps : list GenStep) (w : World) :
  (all_apply h self steps w).1 = Returned true ->
  trace (all_apply h self steps w).2
  = trace w ++ map (step_event h self) steps.
Proof.
  revert w. induction steps as [|[fmt arg | op] rest IH]; intros w.
  - intros _. simpl. now rewrite app_nil_r.
  - intros Hr.
    change (all_apply h self (LoggerInfo fmt arg :: rest) w)
      with (all_apply h self rest (emit (EvLoggerInfo fmt arg) w)) in *.
    rewrite (IH _ Hr). simpl. now rewrite <- app_assoc.
  - rewrite all_apply_yield.
    destruct (Z.eqb_spec
                (child_exit h (trace w) (KOLIBRI :: command_of op)
                   (kolibri_env h self)) 0) as [Hzero | Hne].
    + intros Hr. rewrite (IH _ Hr). simpl.
      now rewrite Hzero, <- app_assoc.
    + discriminate.
Qed.

(** Operations that all exit with zero make the [all(...)] expression
    true. *)
Lemma all_apply_true_of_zero (h : Host) (self : Application)
    (cached : list ContentExtension) :
  Forall exits_zero
    (subprocess_calls
       (trace (all_apply h self (iter_content_operations self)
                 (initial_world cached)).2)) ->
  (all_apply h self (iter_content_operations self)
     (initial_world cached)).1 = Returned true.
Proof.
  intros Hzero.
  destruct (all_apply_spec h self (iter_content_operations self)
              (initial_world cached))
    as (events & Htrace & _ & _ & _ & _ & Hres).
  simpl in Htrace. rewrite Htrace in Hzero.
  destruct Hres as [(Hr & _ & _)
                   | (finished & failed & Hcalls & _ & Hbad & _)];
    [exact Hr|].
  rewrite Hcalls in Hzero. now apply not_all_exit_zero in Hzero.
Qed.

(** X2: the result of a run is read off its last child process, and every
    child process before the last exited with zero.  The run returns 0
    when the last one exits with zero and raises CalledProcessError with
    its exit status and command line otherwise; it never returns a
    non-zero value. *)
Theorem run_result_from_last_call
    (h : Host) (self : Application) (cached : list ContentExtension) :
  let final := run h self (initial_world cached) in
  (exists earlier last,
      subprocess_calls (trace final.2) = earlier ++ [last]
      /\ Forall exits_zero earlier
      /\ final.1
         = if call_code last =? 0 then Returned 0
           else Raised (CalledProcessError (call_code last) (call_cmd last)))
  /\ (forall code, final.1 = Returned code -> code = 0).
Proof.
  cbv zeta.
  assert (Hlast : exists earlier last,
             subprocess_calls (trace (run h self (initial_world cached)).2)
             = earlier ++ [last]
             /\ Forall exits_zero earlier
             /\ (run h self (initial_world cached)).1
                = if call_code last =? 0 then Returned 0
                  else Raised (CalledProcessError (call_code last)
                                                  (call_cmd last))).
  { destruct (all_apply_spec h self (iter_content_operations self)
                (initial_world cached))
      as (events & Htrace & _ & _ & _ & _ & Hres).
    simpl in Htrace.
    destruct Hres as [(Hr & Hzero & _)
                     | (finished & failed & Hcalls & Hfin & Hbad & Hr)].
    - rewrite (run_after_success _ _ _ Hr), run_kolibri_eq. simpl.
      rewrite Htrace, !subprocess_calls_app. simpl. rewrite app_nil_r.
      eexists _, _. split; [reflexivity|]. split; [exact Hzero|].
      reflexivity.
    - rewrite (run_after_raise _ _ _ _ Hr). simpl. rewrite Htrace, Hcalls.
      exists finished, failed. split; [reflexivity|]. split; [exact Hfin|].
      destruct (Z.eqb_spec (call_code failed) 0); [contradiction|].
      reflexivity. }
  split; [exact Hlast|].
  destruct Hlast as (earlier & last & _ & _ & ->).
  intros code. destruct (_ =? 0); [congruence | discriminate].
Qed.

(** X4: every child process of a run is the Kolibri executable, and a run
    starts at most one child process more than there are operations in the
    plan. *)
Theorem run_starts_only_kolibri
    (h : Host) (self : Application) (cached : list ContentExtension) :
  let calls :=
    subprocess_calls (trace (run h self (initial_world cached)).2) in
  Forall (fun c => exists args, call_cmd c = KOLIBRI :: args) calls
  /\ (length calls
      <= length (yielded (iter_content_operations self)) + 1)%nat.
Proof.
  cbv zeta.
  destruct (all_apply_spec h self (iter_content_operations self)
              (initial_world cached))
    as (events & Htrace & _ & _ & _ & Hcmd & Hres).
  simpl in Htrace.
  assert (Hprog : Forall (fun c => exists args, call_cmd c = KOLIBRI :: args)
                         (subprocess_calls events)).
  { apply List.Forall_forall. intros c Hc.
    assert (Hin : In (call_cmd c) (map call_cmd (subprocess_calls events)))
      by now apply List.in_map.
    rewrite Hcmd in Hin. apply List.in_map_iff in Hin as (op & <- & _). eauto. }
  assert (Hlen : (length (subprocess_calls events)
                  <= length (yielded (iter_content_operations self)))%nat).
  { apply (f_equal (@length _)) in Hcmd.
    rewrite !length_map, length_take in Hcmd. lia. }
  destruct Hres as [(Hr & _ & _) | (finished & failed & _ & _ & _ & Hr)].
  - rewrite (run_after_success _ _ _ Hr), run_kolibri_eq. simpl.
    rewrite Htrace, !subprocess_calls_app. simpl. rewrite app_nil_r. split.
    + apply Forall_app. split; [exact Hprog|]. constructor; eauto.
    + rewrite length_app. simpl. lia.
  - rewrite (run_after_raise _ _ _ _ Hr). simpl. rewrite Htrace.
    split; [exact Hprog | lia].
Qed.

(** X5: apart from KOLIBRI_CONTENT_FALLBACK_DIRS, every child process of a
    run sees each environment variable exactly as the wrapper's own
    environment has it, set or unset. *)
Theorem kolibri_env_keeps_other_variables
    (h : Host) (self : Application) (cached : list ContentExtension)
    (name : string) :
  name <> "KOLIBRI_CONTENT_FALLBACK_DIRS" ->
  Forall (fun c => call_env c !! name = os_environ h !! name)
         (subprocess_calls (trace (run h self (initial_world cached)).2)).
Proof.
  intros Hname.
  destruct (run_calls_env h self cached) as [_ Henv].
  eapply Forall_impl; [exact Henv|].
  intros c ->. unfold kolibri_env. now apply lookup_insert_ne.
Qed.

(** X6: when the comparison of the cached and the active set gives no
    channel comparison, the run starts no content operation and logs
    nothing, but still writes the active set to the cache and then starts
    Kolibri with the wrapper's arguments. *)
Theorem run_with_nothing_to_compare
    (h : Host) (self : Application) (cached : list ContentExtension) :
  channel_compares self = [] ->
  let final := run h self (initial_world cached) in
  exists code,
    trace final.2
    = [ EvWriteCache (active_extensions self);
        EvSubprocess (KOLIBRI :: Py.slice_from_1 (sys_argv h))
                     (kolibri_env h self) code ]
    /\ cache final.2 = active_extensions self.
Proof.
  intros Hnone. cbv zeta.
  assert (Hr : (all_apply h self (iter_content_operations self)
                  (initial_world cached)).1 = Returned true)
    by now rewrite iter_content_operations_eq, Hnone.
  rewrite (run_after_success _ _ _ Hr), run_kolibri_eq.
  rewrite iter_content_operations_eq, Hnone. simpl. eauto.
Qed.

Lemma log_lines_step_events (h : Host) (self : Application)
    (ccs : list ContentChannelCompare) :
  map snd (log_lines
             (map (step_event h self) (flat_map from_channel_compare ccs)))
  = map channel_id ccs.
Proof.
  induction ccs as [|cc ccs IH]; simpl; [reflexivity|].
  rewrite map_app, log_lines_app, map_app, IH. f_equal.
  destruct (from_channel_compare_branch cc) as (b & _ & ->).
  now destruct b.
Qed.

(** X7: when every content operation exits with zero, what the run did
    before writing the cache is exactly one event per generator step, in
    order: the log line of each channel comparison followed by the child
    processes of its operations, each with the Kolibri environment; the
    run logs one line per channel comparison, naming its channel id. *)
Theorem successful_operations_trace
    (h : Host) (self : Application) (cached : list ContentExtension) :
  let phase :=
    all_apply h self (iter_content_operations self) (initial_world cached) in
  let final := run h self (initial_world cached) in
  Forall exits_zero (subprocess_calls (trace phase.2)) ->
  trace phase.2 = map (step_event h self) (iter_content_operations self)
  /\ map snd (log_lines (trace final.2))
     = map channel_id (channel_compares self).
Proof.
  cbv zeta. intros Hzero.
  pose proof (all_apply_true_of_zero h self cached Hzero) as Hr.
  pose proof (all_apply_success h self _ _ Hr) as Htrace.
  simpl in Htrace. split; [exact Htrace|].
  rewrite (run_after_success _ _ _ Hr), run_kolibri_eq. simpl.
  rewrite Htrace, !log_lines_app. simpl. rewrite !app_nil_r.
  rewrite iter_content_operations_eq. apply log_lines_step_events.
Qed.

(** X13: when KOLIBRI_HOME is not empty, the content directory passed to
    importcontent, its last argument, is never empty. *)
Theorem import_content_directory_not_empty
    (cid : string) (dir : option string) (includes excludes : list string) :
  KOLIBRI_HOME <> "" ->
  exists front d,
    apply (KolibriContentOperation_ImportContent cid dir includes excludes)
          (fun args => args)
    = front ++ [d]
    /\ d <> "".
Proof.
  intros Hhome. rewrite apply_import_content.
  exists ([ "manage"; "importcontent" ]
          ++ optional_flag "--node_ids" includes
          ++ optional_flag "--exclude_node_ids" excludes
          ++ [ "disk"; cid ]),
         (Py.or_str dir KOLIBRI_HOME).
  split.
  - now rewrite <- !app_assoc.
  - destruct dir as [[|a d]|]; simpl; congruence.
Qed.

End RunProperties.

(** ** More on the commands *)

Section CommandProperties.
Context `{Globals}.

(** X12: the command line tells the operations apart: two operations that
    give the same command line are of the same subclass, for the same
    channel id, and agree on the removed flag. *)
Theorem command_identifies_operation (op1 op2 : KolibriContentOperation) :
  apply op1 (fun args => args) = apply op2 (fun args => args) ->
  same_class op1 op2 = true
  /\ op_channel_id op1 = op_channel_id op2
  /\ op_removed op1 = op_removed op2.
Proof.
  rewrite !apply_eq_command.
  destruct op1 as [c1 d1 | c1 d1 i1 e1 | c1 r1],
           op2 as [c2 d2 | c2 d2 i2 e2 | c2 r2];
    simpl; intros Heq; try discriminate.
  - injection Heq as Hc. simpl in Hc. now subst.
  - destruct r2; discriminate.
  - apply (f_equal (@rev string)) in Heq.
    change ("manage" :: "importcontent" :: ?x) with
      (["manage"; "importcontent"] ++ x) in Heq.
    rewrite !rev_app_distr in Heq. simpl in Heq.
    now injection Heq as _ Hc _.
  - destruct r1; discriminate.
  - destruct r1, r2; try discriminate;
      injection Heq as Hc; simpl in Hc; now subst.
Qed.

End CommandProperties.

(** ** The properties at the sample inputs *)

Lemma from_channel_compare_when_added_witness :
  added Sample.channel_added = true
  /\ yielded (from_channel_compare Sample.channel_added)
     = [ KolibriContentOperation_ImportChannel "c1" (Some "/ext1");
         KolibriContentOperation_ImportContent
           "c1" (Some "/ext1") ["a"; "b"] [] ].
Proof.
  split; [reflexivity|].
  apply (from_channel_compare_when_added Sample.channel_added).
  reflexivity.
Defined.

Lemma from_channel_compare_when_removed_witness :
  yielded (from_channel_compare Sample.channel_removed)
  = [ KolibriContentOperation_RescanContent "c2" true ]
  /\ forallb is_rescan (yielded (from_channel_compare Sample.channel_removed))
     = true.
Proof.
  apply (from_channel_compare_when_removed Sample.channel_removed);
    reflexivity.
Defined.

Lemma from_channel_compare_when_retracted_witness :
  (yielded (from_channel_compare Sample.channel_retracted)
   = [ KolibriContentOperation_RescanContent "c3" false ]
   /\ forallb is_rescan
        (yielded (from_channel_compare Sample.channel_retracted)) = true)
  /\ (yielded (from_channel_compare Sample.channel_shrunk)
      = [ KolibriContentOperation_RescanContent "c4" false ]
      /\ forallb is_rescan
           (yielded (from_channel_compare Sample.channel_shrunk)) = true).
Proof.
  split.
  - apply (from_channel_compare_when_retracted Sample.channel_retracted);
      [reflexivity | reflexivity | left; reflexivity].
  - apply (from_channel_compare_when_retracted Sample.channel_shrunk);
      [reflexivity | reflexivity | right; split; reflexivity].
Defined.

(** The order of the tests shows when several flags are set: added wins. *)
Example from_channel_compare_added_and_removed :
  yielded (from_channel_compare
    {| channel_id := "c"; extension_dir := None;
       added := true; removed := true;
       exclude_nodes_added := true; include_nodes_removed := true;
       new_include_node_ids := []; new_exclude_node_ids := [] |})
  = [ KolibriContentOperation_ImportChannel "c" None;
      KolibriContentOperation_ImportContent "c" None [] [] ].
Proof. reflexivity. Qed.

Example apply_import_content_sample :
  @apply Sample.home _
    (KolibriContentOperation_ImportContent "c1" (Some "") ["a"; "b"] ["x"])
    (fun args => args)
  = [ "manage"; "importcontent"; "--node_ids"; "a,b";
      "--exclude_node_ids"; "x"; "disk"; "c1"; "/home/user/.kolibri" ].
Proof. reflexivity. Qed.

(** A run in which everything exits with zero: the new extension's channel
    is imported, the cache is written, Kolibri is started. *)
Example run_sample_ok :
  let final :=
    Sample.run_on Sample.host_ok in
  final.1 = Returned 0
  /\ Sample.summary (trace final.2)
     = [ ([KOLIBRI; "manage"; "scanforcontent"; "--channels=c1";
           "--skip-annotations"], 0);
         ([KOLIBRI; "manage"; "importcontent"; "disk"; "c1"; "/ext/one"], 0);
         ([KOLIBRI; "start"; "--foreground"], 0) ]
  /\ Sample.writes (trace final.2) = [[Sample.ext2; Sample.ext1]]
  /\ cache final.2 = [Sample.ext2; Sample.ext1].
Proof. vm_compute. repeat split. Qed.

(** A run in which importcontent exits with 2: nothing follows it. *)
Example run_sample_import_fails :
  let final :=
    Sample.run_on Sample.host_import_fails in
  final.1
  = Raised (CalledProcessError 2
      [KOLIBRI; "manage"; "importcontent"; "disk"; "c1"; "/ext/one"])
  /\ Sample.summary (trace final.2)
     = [ ([KOLIBRI; "manage"; "scanforcontent"; "--channels=c1";
           "--skip-annotations"], 0);
         ([KOLIBRI; "manage"; "importcontent"; "disk"; "c1"; "/ext/one"], 2) ]
  /\ Sample.writes (trace final.2) = []
  /\ cache final.2 = [Sample.ext2].
Proof. vm_compute. repeat split. Qed.

(** C8: when Kolibri itself exits with 3, the run starts it once with the
    wrapper's arguments after the content operations and the cache write,
    but the exit status is raised as a CalledProcessError and not
    returned. *)
Theorem run_raises_exit_status_of_kolibri :
  let final :=
    Sample.run_on Sample.host_start_fails in
  Sample.summary (trace final.2)
  = [ ([KOLIBRI; "manage"; "scanforcontent"; "--channels=c1";
        "--skip-annotations"], 0);
      ([KOLIBRI; "manage"; "importcontent"; "disk"; "c1"; "/ext/one"], 0);
      ([KOLIBRI; "start"; "--foreground"], 3) ]
  /\ Sample.writes (trace final.2) = [[Sample.ext2; Sample.ext1]]
  /\ final.1 = Raised (CalledProcessError 3 [KOLIBRI; "start"; "--foreground"])
  /\ final.1 <> Returned 3.
Proof. vm_compute. repeat split. discriminate. Qed.

Lemma run_final_invocation_witness :
  exists code,
    trace (Sample.run_on Sample.host_start_fails).2
    = trace (@all_apply Sample.home Sample.extensions Sample.host_start_fails
               Sample.app SampleRuns.steps Sample.world).2
      ++ [ EvWriteCache
             (@active_extensions Sample.extensions Sample.app);
           EvSubprocess
             (KOLIBRI
              :: Py.slice_from_1
                   (@sys_argv Sample.extensions Sample.host_start_fails))
             (@kolibri_env Sample.extensions Sample.host_start_fails
                Sample.app)
             code ]
    /\ (Sample.run_on Sample.host_start_fails).1
       = (if code =? 0 then Returned code
          else Raised
                 (CalledProcessError code
                    (KOLIBRI
                     :: Py.slice_from_1
                          (@sys_argv Sample.extensions
                             Sample.host_start_fails)))).
Proof.
  apply (@run_final_invocation Sample.home Sample.extensions
           Sample.host_start_fails Sample.app SampleRuns.cached).
  vm_compute. repeat constructor.
Defined.

Lemma kolibri_env_keeps_other_variables_witness :
  Forall (fun c =>
            call_env c !! "HOME"
            = @os_environ Sample.extensions Sample.host_ok !! "HOME")
         (subprocess_calls (trace (Sample.run_on Sample.host_ok).2)).
Proof.
  apply (@kolibri_env_keeps_other_variables Sample.home Sample.extensions
           Sample.host_ok Sample.app SampleRuns.cached "HOME").
  discriminate.
Defined.

Lemma run_with_nothing_to_compare_witness :
  exists code,
    trace (@run Sample.home Sample.extensions Sample.host_ok
             SampleRuns.app_unchanged Sample.world).2
    = [ EvWriteCache
          (@active_extensions Sample.extensions SampleRuns.app_unchanged);
        EvSubprocess
          (KOLIBRI
           :: Py.slice_from_1 (@sys_argv Sample.extensions Sample.host_ok))
          (@kolibri_env Sample.extensions Sample.host_ok
             SampleRuns.app_unchanged)
          code ]
    /\ cache (@run Sample.home Sample.extensions Sample.host_ok
                SampleRuns.app_unchanged Sample.world).2
       = @active_extensions Sample.extensions SampleRuns.app_unchanged.
Proof.
  apply (@run_with_nothing_to_compare Sample.home Sample.extensions
           Sample.host_ok SampleRuns.app_unchanged SampleRuns.cached).
  reflexivity.
Defined.

Lemma successful_operations_trace_witness :
  trace (@all_apply Sample.home Sample.extensions Sample.host_ok
           Sample.app SampleRuns.steps Sample.world).2
  = map (@step_event Sample.home Sample.extensions Sample.host_ok Sample.app)
        SampleRuns.steps
  /\ map snd (log_lines (trace (Sample.run_on Sample.host_ok).2))
     = map channel_id (@channel_compares Sample.extensions Sample.app).
Proof.
  apply (@successful_operations_trace Sample.home Sample.extensions
           Sample.host_ok Sample.app SampleRuns.cached).
  vm_compute. repeat constructor.
Defined.

Lemma import_content_follows_import_channel_witness :
  exists pre',
    [ KolibriContentOperation_ImportChannel "c1" (Some "/ext/one") ]
    = pre' ++ [ KolibriContentOperation_ImportChannel "c1" (Some "/ext/one") ].
Proof.
  apply (@import_content_follows_import_channel Sample.extensions
           Sample.app 2
           [ KolibriContentOperation_ImportChannel "c1" (Some "/ext/one") ]
           [] "c1" (Some "/ext/one") [] []).
  reflexivity.
Defined.

Lemma import_content_directory_not_empty_witness :
  exists front d,
    @apply Sample.home _
      (KolibriContentOperation_ImportContent "c1" None ["a"] [])
      (fun args => args)
    = front ++ [d]
    /\ d <> "".
Proof.
  apply (@import_content_directory_not_empty Sample.home "c1" None ["a"] []).
  discriminate.
Defined.

Lemma command_identifies_operation_witness :
  same_class (KolibriContentOperation_ImportChannel "c1" None)
             (KolibriContentOperation_ImportChannel "c1" (Some "/ext/one"))
  = true
  /\ op_channel_id (KolibriContentOperation_ImportChannel "c1" None)
     = op_channel_id
         (KolibriContentOperation_ImportChannel "c1" (Some "/ext/one"))
  /\ op_removed (KolibriContentOperation_ImportChannel "c1" None)
     = op_removed
         (KolibriContentOperation_ImportChannel "c1" (Some "/ext/one")).
Proof.
  apply (@command_identifies_operation Sample.home
           (KolibriContentOperation_ImportChannel "c1" None)
           (KolibriContentOperation_ImportChannel "c1" (Some "/ext/one"))).
  reflexivity.
Defined.
